(** * Verification of the configuration loader [config.go]

    The loader reads a dotenv file, overlays the process environment,
    applies fallback defaults, runs the caller's options in order and
    validates two required fields.  This file embeds the Go functions of
    [config.go] as Rocq functions and proves the behaviour the
    specification states about them.

    Go strings are byte sequences and are modelled by [string]; Go maps
    with string keys are modelled by [gmap string string]; a Go result
    pair [(T, error)] is modelled by [result T]; calls to [log.Printf]
    are recorded, in order, in a list of emitted lines. *)

From stdpp Require Import base strings gmap list.

Local Open Scope string_scope.
Local Open Scope list_scope.

(** ** Go values *)

(** Error values.  [Errorf] is [fmt.Errorf] with a constant format,
    [ErrorfW] is [fmt.Errorf("<prefix>%w", cause)], and [ExternalError] is
    an error created outside this package (by [os] or [godotenv]); its flag
    records whether [os.IsNotExist] holds of it. *)
Inductive error : Type :=
| Errorf (msg : string)
| ErrorfW (prefix : string) (cause : error)
| ExternalError (notExist : bool) (msg : string).

(** The [Error()] method: the message an error prints. *)
Fixpoint Error (e : error) : string :=
  match e with
  | Errorf msg => msg
  | ErrorfW prefix cause => prefix +:+ Error cause
  | ExternalError _ msg => msg
  end.

(** [os.IsNotExist]: it inspects the error itself and does not look
    through the wrapping done by [fmt.Errorf]. *)
Definition IsNotExist (e : error) : bool :=
  match e with
  | ExternalError notExist _ => notExist
  | _ => false
  end.

(** A Go result pair [(T, error)]: either a value with a nil error, or a
    non-nil error. *)
Inductive result (A : Type) : Type :=
| Ok (a : A)
| Err (e : error).
Arguments Ok {A} a.
Arguments Err {A} e.

(** ** Logging *)

(** A computation that may call [log.Printf]: its value together with the
    lines it logged, oldest first. *)
Definition Logged (A : Type) : Type := (A * list string)%type.

#[global] Instance Logged_ret : MRet Logged := λ A a, (a, []).
#[global] Instance Logged_bind : MBind Logged := λ A B f m,
  let '(a, l1) := m in let '(b, l2) := f a in (b, l1 ++ l2).

Definition Printf (line : string) : Logged unit := (tt, [line]).

Definition value {A} (m : Logged A) : A := fst m.
Definition logs {A} (m : Logged A) : list string := snd m.

(** ** The outside world *)

(** What the loader reads from its surroundings.
    - [environ]: the process environment, as [os.LookupEnv] sees it;
    - [callerEnvFile]: the value of
      [filepath.Join(filepath.Dir(b), "../..", ".env")] for the file [b]
      reported by [runtime.Caller(0)];
    - [dotenvRead]: the outcome of [godotenv.Read] on a path. *)
Record World : Type := {
  environ : gmap string string;
  callerEnvFile : string;
  dotenvRead : string → result (gmap string string)
}.

(** [os.LookupEnv]. *)
Definition LookupEnv (w : World) (key : string) : string * bool :=
  match environ w !! key with
  | Some v => (v, true)
  | None => ("", false)
  end.

(** [os.Getenv]: the empty string when the variable is unset. *)
Definition Getenv (w : World) (key : string) : string := fst (LookupEnv w key).

(** The two-result map index expression [value, exists := envs[key]]. *)
Definition index (envs : gmap string string) (key : string) : string * bool :=
  match envs !! key with
  | Some v => (v, true)
  | None => ("", false)
  end.

(** The test [s != ""]. *)
Definition nonEmpty (s : string) : bool := negb (String.eqb s "").

(** ** [strconv] *)

Definition FormatBool (b : bool) : string := if b then "true" else "false".

(** [strconv.ParseBool]; the [*NumError] it returns on failure is only
    compared with nil by the loader, so failure is [None]. *)
Definition ParseBool (str : string) : option bool :=
  if existsb (String.eqb str) ["1"; "t"; "T"; "TRUE"; "true"; "True"] then Some true
  else if existsb (String.eqb str) ["0"; "f"; "F"; "FALSE"; "false"; "False"] then Some false
  else None.

(** ** The package *)

Record Config : Type := {
  DatabaseURL : string;
  AuthServiceURL : string;
  Debug : bool;
  Port : string
}.

(** The type [Option] of functions from a [Config] pointer: the effect of an
    option on the configuration it is handed. *)
Definition Option : Type := Config → Config.

Definition WithDatabaseURL (url : string) : Option := λ c,
  if nonEmpty url then
    {| DatabaseURL := url; AuthServiceURL := AuthServiceURL c;
       Debug := Debug c; Port := Port c |}
  else c.

Definition WithAuthServiceURL (url : string) : Option := λ c,
  if nonEmpty url then
    {| DatabaseURL := DatabaseURL c; AuthServiceURL := url;
       Debug := Debug c; Port := Port c |}
  else c.

Definition WithDebug (debug : bool) : Option := λ c,
  {| DatabaseURL := DatabaseURL c; AuthServiceURL := AuthServiceURL c;
     Debug := debug; Port := Port c |}.

Definition WithPort (port : string) : Option := λ c,
  if nonEmpty port then
    {| DatabaseURL := DatabaseURL c; AuthServiceURL := AuthServiceURL c;
       Debug := Debug c; Port := port |}
  else c.

(** The method [validate] of [Config]; [None] is the nil error. *)
Definition validate (c : Config) : option error :=
  if String.eqb (DatabaseURL c) "" then Some (Errorf "DATABASE_URL is not set")
  else if String.eqb (AuthServiceURL c) "" then Some (Errorf "AUTH_SERVICE_URL is not set")
  else None.

Definition getEnvWithFallback (w : World) (envs : gmap string string)
    (key fallback : string) : string :=
  let '(value, exists_) := index envs key in
  if exists_ && nonEmpty value then value
  else
    let '(value, exists_) := LookupEnv w key in
    if exists_ && nonEmpty value then value
    else fallback.

Definition getBoolEnvWithFallback (w : World) (envs : gmap string string)
    (key : string) (fallback : bool) : Logged bool :=
  let strValue := getEnvWithFallback w envs key (FormatBool fallback) in
  match ParseBool strValue with
  | None =>
      _ ← Printf ("Warning: invalid boolean value for " +:+ key +:+ ", using fallback");
      mret fallback
  | Some boolValue => mret boolValue
  end.

(** The path [loadEnv] reads: [ENV_FILE] when set and non-empty, the
    path next to the caller's source tree otherwise. *)
Definition envFilePath (w : World) : string :=
  let envFile := Getenv w "ENV_FILE" in
  if String.eqb envFile "" then callerEnvFile w else envFile.

Definition loadEnv (w : World) : Logged (result (gmap string string)) :=
  let envFile := envFilePath w in
  match dotenvRead w envFile with
  | Err err =>
      if IsNotExist err then
        _ ← Printf ("Warning: .env file not found at " +:+ envFile
                     +:+ ", using only OS environment variables");
        mret (Ok ∅)
      else mret (Err (ErrorfW "error reading .env file: " err))
  | Ok envs => mret (Ok envs)
  end.

(** The loop [for _, opt := range opts { opt(c) }]. *)
Definition applyOptions (opts : list Option) (c : Config) : Config :=
  fold_left (λ c opt, opt c) opts c.

(** The struct literal of [NewConfig]; its fields are evaluated in
    order, and only the [Debug] field can log. *)
Definition resolveConfig (w : World) (envs : gmap string string) : Logged Config :=
  let databaseURL := getEnvWithFallback w envs "DATABASE_URL" "" in
  let authServiceURL := getEnvWithFallback w envs "AUTH_SERVICE_URL" "http://localhost:8080" in
  debug ← getBoolEnvWithFallback w envs "DEBUG" false;
  let port := getEnvWithFallback w envs "PORT" "8092" in
  mret {| DatabaseURL := databaseURL; AuthServiceURL := authServiceURL;
          Debug := debug; Port := port |}.

Definition NewConfig (w : World) (opts : list Option) : Logged (result Config) :=
  loaded ← loadEnv w;
  match loaded with
  | Err err => mret (Err (ErrorfW "failed to load environment: " err))
  | Ok envs =>
      c ← resolveConfig w envs;
      let c := applyOptions opts c in
      match validate c with
      | Some err => mret (Err err)
      | None => mret (Ok c)
      end
  end.

(** The options a caller can build from the four exported constructors. *)
Inductive Named : Option → Prop :=
| Named_DatabaseURL url : Named (WithDatabaseURL url)
| Named_AuthServiceURL url : Named (WithAuthServiceURL url)
| Named_Debug debug : Named (WithDebug debug)
| Named_Port port : Named (WithPort port).

(** ** Sample worlds used to run the model *)

Definition missingFile : result (gmap string string) :=
  Err (ExternalError true "open .env: no such file or directory").

Definition unreadableFile : result (gmap string string) :=
  Err (ExternalError false "open .env: permission denied").

(** No dotenv file and an empty process environment. *)
Definition bareWorld : World :=
  {| environ := ∅; callerEnvFile := "../../.env"; dotenvRead := λ _, missingFile |}.

(** A dotenv file that exists and cannot be read; [DATABASE_URL] is set
    in the process environment. *)
Definition unreadableWorld : World :=
  {| environ := {["DATABASE_URL" := "postgres://env"]};
     callerEnvFile := "../../.env"; dotenvRead := λ _, unreadableFile |}.

(** A dotenv file with the given content and the given process environment. *)
Definition fileWorld (file env : gmap string string) : World :=
  {| environ := env; callerEnvFile := "../../.env"; dotenvRead := λ _, Ok file |}.

Definition sampleConfig : Config :=
  {| DatabaseURL := "postgres://db"; AuthServiceURL := "http://auth";
     Debug := false; Port := "8092" |}.

(** ** What a source of key/value pairs offers for a key *)

(** The source has a non-empty value [v] for [key]. *)
Definition holds (m : gmap string string) (key v : string) : Prop :=
  m !! key = Some v ∧ v ≠ "".

(** The source has no entry for [key], or an empty one. *)
Definition lacks (m : gmap string string) (key : string) : Prop :=
  m !! key = None ∨ m !! key = Some "".

(** An option leaves the field read by [field] as it found it. *)
Definition keeps {A : Type} (field : Config → A) (o : Option) : Prop :=
  ∀ c, field (o c) = field c.

(** An option a caller can write by hand, outside the four constructors:
    it assigns the empty string to [AuthServiceURL]. *)
Definition clearAuthServiceURL : Option := λ c,
  {| DatabaseURL := DatabaseURL c; AuthServiceURL := "";
     Debug := Debug c; Port := Port c |}.

(** The two validation errors. *)
Definition errDatabaseURL : error := Errorf "DATABASE_URL is not set".
Definition errAuthServiceURL : error := Errorf "AUTH_SERVICE_URL is not set".

(** A world whose [ENV_FILE] names the dotenv file to read; no file
    exists anywhere else. *)
Definition envFileWorld : World :=
  {| environ := {["ENV_FILE" := "/etc/app.env"]};
     callerEnvFile := "../../.env";
     dotenvRead := λ path,
       if String.eqb path "/etc/app.env"
       then Ok {["DATABASE_URL" := "postgres://file"; "DEBUG" := "T"]}
       else missingFile |}.

(** No dotenv file; [DATABASE_URL] is set in the process environment. *)
Definition envOnlyWorld : World :=
  {| environ := {["DATABASE_URL" := "postgres://env"]};
     callerEnvFile := "../../.env"; dotenvRead := λ _, missingFile |}.



(** Case analysis on the test [s != ""] in the goal. *)
Ltac case_nonEmpty :=
  match goal with
  | |- context [nonEmpty ?s] => destruct (nonEmpty s) eqn:?
  end.

(** ** Running the model *)

Example run_bare : NewConfig bareWorld [WithDatabaseURL "postgres://x"] =
  (Ok {| DatabaseURL := "postgres://x"; AuthServiceURL := "http://localhost:8080";
         Debug := false; Port := "8092" |},
   ["Warning: .env file not found at ../../.env, using only OS environment variables"]).
Proof. vm_compute. reflexivity. Qed.

Example run_env_file :
  NewConfig envFileWorld [] =
  (Ok {| DatabaseURL := "postgres://file"; AuthServiceURL := "http://localhost:8080";
         Debug := true; Port := "8092" |}, []).
Proof. vm_compute. reflexivity. Qed.

Example run_error_message :
  Error (ErrorfW "failed to load environment: "
           (ErrorfW "error reading .env file: "
              (ExternalError false "open .env: permission denied")))
  = "failed to load environment: error reading .env file: open .env: permission denied".
Proof. reflexivity. Qed.

Example run_logs :
  logs (NewConfig {| environ := {["DEBUG" := "notabool"]};
                     callerEnvFile := "../../.env";
                     dotenvRead := λ _, missingFile |} []) =
  ["Warning: .env file not found at ../../.env, using only OS environment variables";
   "Warning: invalid boolean value for DEBUG, using fallback"].
Proof. vm_compute. reflexivity. Qed.

Example run_file :
  value (NewConfig (fileWorld {["PORT" := "9000"; "DATABASE_URL" := "pg"]} {["PORT" := "7000"]}) [])
  = Ok {| DatabaseURL := "pg"; AuthServiceURL := "http://localhost:8080";
          Debug := false; Port := "9000" |}.
Proof. vm_compute. reflexivity. Qed.

(** ** Basic facts *)

Lemma nonEmpty_true (s : string) : nonEmpty s = true ↔ s ≠ "".
Proof.
  unfold nonEmpty. rewrite negb_true_iff.
  destruct (String.eqb_spec s ""); split; congruence.
Qed.

Lemma nonEmpty_of_ne (s : string) : s ≠ "" → nonEmpty s = true.
Proof. apply nonEmpty_true. Qed.

Lemma holds_or_lacks (m : gmap string string) (key : string) :
  (∃ v, holds m key v) ∨ lacks m key.
Proof.
  unfold holds, lacks. destruct (m !! key) as [v|] eqn:E; [|by right; left].
  destruct (decide (v = "")) as [->|Hv]; [by right; right|].
  left. by exists v.
Qed.

(** The first tier of [getEnvWithFallback]. *)
Lemma getEnvWithFallback_file (w : World) (envs : gmap string string)
    (key fallback v : string) :
  holds envs key v → getEnvWithFallback w envs key fallback = v.
Proof.
  intros [E Hv]. unfold getEnvWithFallback, index. rewrite E. simpl.
  by rewrite (nonEmpty_of_ne _ Hv).
Qed.

(** Skipping the first tier. *)
Lemma getEnvWithFallback_skip_file (w : World) (envs : gmap string string)
    (key fallback : string) :
  lacks envs key →
  getEnvWithFallback w envs key fallback = getEnvWithFallback w ∅ key fallback.
Proof.
  intros [E|E]; unfold getEnvWithFallback, index; rewrite E, lookup_empty; reflexivity.
Qed.

(** The second tier. *)
Lemma getEnvWithFallback_environ (w : World) (key fallback v : string) :
  holds (environ w) key v → getEnvWithFallback w ∅ key fallback = v.
Proof.
  intros [E Hv]. unfold getEnvWithFallback, index, LookupEnv.
  rewrite lookup_empty, E. simpl. by rewrite (nonEmpty_of_ne _ Hv).
Qed.

(** The last tier. *)
Lemma getEnvWithFallback_default (w : World) (key fallback : string) :
  lacks (environ w) key → getEnvWithFallback w ∅ key fallback = fallback.
Proof.
  intros [E|E]; unfold getEnvWithFallback, index, LookupEnv;
    rewrite lookup_empty, E; reflexivity.
Qed.

(** ** Resolution of a string setting *)

(** C1.  [getEnvWithFallback] returns the file mapping's value for the key
    when that value is present and non-empty, whatever the process
    environment holds (so the file wins when both have a value); when the
    file mapping has no entry or an empty entry for the key, it returns the
    process environment's value when that is present and non-empty; and
    when neither source has a non-empty value it returns the fallback. *)
Theorem getEnvWithFallback_precedence (w : World) (envs : gmap string string)
    (key fallback : string) :
  (∀ v, holds envs key v → getEnvWithFallback w envs key fallback = v) ∧
  (lacks envs key → ∀ v, holds (environ w) key v →
     getEnvWithFallback w envs key fallback = v) ∧
  (lacks envs key → lacks (environ w) key →
     getEnvWithFallback w envs key fallback = fallback).
Proof.
  split; [|split].
  - intros v Hv. by apply getEnvWithFallback_file.
  - intros Hf v Hv. rewrite getEnvWithFallback_skip_file by done.
    by apply getEnvWithFallback_environ.
  - intros Hf He. rewrite getEnvWithFallback_skip_file by done.
    by apply getEnvWithFallback_default.
Qed.

(** The three tiers on the [PORT] setting: the file value beats the
    environment value, an empty file entry gives way to the environment,
    and with nothing set anywhere the default is used. *)
Lemma getEnvWithFallback_precedence_witness :
  getEnvWithFallback (fileWorld {["PORT" := "9000"]} {["PORT" := "7000"]})
    {["PORT" := "9000"]} "PORT" "8092" = "9000" ∧
  getEnvWithFallback (fileWorld {["PORT" := ""]} {["PORT" := "7000"]})
    {["PORT" := ""]} "PORT" "8092" = "7000" ∧
  getEnvWithFallback (fileWorld {["PORT" := ""]} ∅)
    {["PORT" := ""]} "PORT" "8092" = "8092".
Proof.
  split; [|split].
  - apply (proj1 (getEnvWithFallback_precedence
             (fileWorld {["PORT" := "9000"]} {["PORT" := "7000"]})
             {["PORT" := "9000"]} "PORT" "8092")).
    split; [vm_compute; reflexivity | discriminate].
  - apply (proj1 (proj2 (getEnvWithFallback_precedence
             (fileWorld {["PORT" := ""]} {["PORT" := "7000"]})
             {["PORT" := ""]} "PORT" "8092"))).
    + right. vm_compute. reflexivity.
    + split; [vm_compute; reflexivity | discriminate].
  - apply (proj2 (proj2 (getEnvWithFallback_precedence
             (fileWorld {["PORT" := ""]} ∅)
             {["PORT" := ""]} "PORT" "8092"))).
    + right. vm_compute. reflexivity.
    + left. vm_compute. reflexivity.
Defined.

(** ** The option constructors *)

Lemma WithDatabaseURL_set (url : string) (c : Config) :
  url ≠ "" →
  WithDatabaseURL url c =
    {| DatabaseURL := url; AuthServiceURL := AuthServiceURL c;
       Debug := Debug c; Port := Port c |}.
Proof. intros H. unfold WithDatabaseURL. by rewrite (nonEmpty_of_ne _ H). Qed.

Lemma WithAuthServiceURL_set (url : string) (c : Config) :
  url ≠ "" →
  WithAuthServiceURL url c =
    {| DatabaseURL := DatabaseURL c; AuthServiceURL := url;
       Debug := Debug c; Port := Port c |}.
Proof. intros H. unfold WithAuthServiceURL. by rewrite (nonEmpty_of_ne _ H). Qed.

Lemma WithPort_set (port : string) (c : Config) :
  port ≠ "" →
  WithPort port c =
    {| DatabaseURL := DatabaseURL c; AuthServiceURL := AuthServiceURL c;
       Debug := Debug c; Port := port |}.
Proof. intros H. unfold WithPort. by rewrite (nonEmpty_of_ne _ H). Qed.

(** C6.  Each constructor touches its own field and no other:
    [WithDebug] stores the supplied boolean whatever it is, and each of
    [WithDatabaseURL], [WithAuthServiceURL], [WithPort] stores the supplied
    string when it is non-empty and changes nothing when it is empty. *)
Theorem constructors_set_one_field (c : Config) :
  (∀ debug, WithDebug debug c =
     {| DatabaseURL := DatabaseURL c; AuthServiceURL := AuthServiceURL c;
        Debug := debug; Port := Port c |}) ∧
  (∀ url, (url ≠ "" → WithDatabaseURL url c =
     {| DatabaseURL := url; AuthServiceURL := AuthServiceURL c;
        Debug := Debug c; Port := Port c |}) ∧
     (url = "" → WithDatabaseURL url c = c)) ∧
  (∀ url, (url ≠ "" → WithAuthServiceURL url c =
     {| DatabaseURL := DatabaseURL c; AuthServiceURL := url;
        Debug := Debug c; Port := Port c |}) ∧
     (url = "" → WithAuthServiceURL url c = c)) ∧
  (∀ port, (port ≠ "" → WithPort port c =
     {| DatabaseURL := DatabaseURL c; AuthServiceURL := AuthServiceURL c;
        Debug := Debug c; Port := port |}) ∧
     (port = "" → WithPort port c = c)).
Proof.
  repeat split.
  - apply WithDatabaseURL_set.
  - by intros ->.
  - apply WithAuthServiceURL_set.
  - by intros ->.
  - apply WithPort_set.
  - by intros ->.
Qed.

(** The constructors on a sample configuration. *)
Lemma constructors_set_one_field_witness :
  WithDebug true sampleConfig =
    {| DatabaseURL := "postgres://db"; AuthServiceURL := "http://auth";
       Debug := true; Port := "8092" |} ∧
  WithDatabaseURL "postgres://x" sampleConfig =
    {| DatabaseURL := "postgres://x"; AuthServiceURL := "http://auth";
       Debug := false; Port := "8092" |} ∧
  WithAuthServiceURL "" sampleConfig = sampleConfig ∧
  WithPort "9000" sampleConfig =
    {| DatabaseURL := "postgres://db"; AuthServiceURL := "http://auth";
       Debug := false; Port := "9000" |}.
Proof.
  destruct (constructors_set_one_field sampleConfig) as (Hd & Hdb & Hauth & Hport).
  split; [apply Hd|].
  split; [apply (proj1 (Hdb "postgres://x")); discriminate|].
  split; [apply (proj2 (Hauth "")); reflexivity|].
  apply (proj1 (Hport "9000")); discriminate.
Defined.

(** C9.  Handing the empty string to [WithDatabaseURL],
    [WithAuthServiceURL] or [WithPort] gives an option that returns the
    configuration it was given, every field unchanged. *)
Theorem empty_string_option_is_identity (c : Config) :
  WithDatabaseURL "" c = c ∧ WithAuthServiceURL "" c = c ∧ WithPort "" c = c.
Proof. repeat split. Qed.

(** ** Running a sequence of options *)

Lemma applyOptions_nil (c : Config) : applyOptions [] c = c.
Proof. reflexivity. Qed.

Lemma applyOptions_cons (o : Option) (opts : list Option) (c : Config) :
  applyOptions (o :: opts) c = applyOptions opts (o c).
Proof. reflexivity. Qed.

Lemma applyOptions_app (opts1 opts2 : list Option) (c : Config) :
  applyOptions (opts1 ++ opts2) c = applyOptions opts2 (applyOptions opts1 c).
Proof. apply fold_left_app. Qed.

(** Options that all leave a field alone leave it alone together. *)
Lemma applyOptions_keeps {A : Type} (field : Config → A) (opts : list Option)
    (c : Config) :
  Forall (keeps field) opts → field (applyOptions opts c) = field c.
Proof.
  intros H. revert c. induction H as [|o opts Ho _ IH]; intros c; [done|].
  rewrite applyOptions_cons, IH. apply Ho.
Qed.

(** Any property of configurations that every option preserves survives
    the whole sequence. *)
Lemma applyOptions_preserves (P : Config → Prop) (opts : list Option) (c : Config) :
  Forall (λ o, ∀ c, P c → P (o c)) opts → P c → P (applyOptions opts c).
Proof.
  intros H. revert c. induction H as [|o opts Ho _ IH]; intros c Hc; [done|].
  rewrite applyOptions_cons. by apply IH, Ho.
Qed.

Lemma Named_keeps_AuthServiceURL_set (o : Option) (c : Config) :
  Named o → AuthServiceURL c ≠ "" → AuthServiceURL (o c) ≠ "".
Proof.
  intros [url|url|debug|port] Hc;
    unfold WithDatabaseURL, WithAuthServiceURL, WithDebug, WithPort;
    try case_nonEmpty; simpl; try done.
  by apply nonEmpty_true.
Qed.

Lemma applyOptions_Named_AuthServiceURL (opts : list Option) (c : Config) :
  Forall Named opts → AuthServiceURL c ≠ "" →
  AuthServiceURL (applyOptions opts c) ≠ "".
Proof.
  intros H. apply (applyOptions_preserves (λ c, AuthServiceURL c ≠ "")).
  eapply Forall_impl; [exact H|]. intros o Ho c'. by apply Named_keeps_AuthServiceURL_set.
Qed.

(** The constructors of the other fields keep a field. *)
Lemma WithDatabaseURL_keeps_others (url : string) :
  keeps AuthServiceURL (WithDatabaseURL url) ∧ keeps Debug (WithDatabaseURL url) ∧
  keeps Port (WithDatabaseURL url).
Proof. repeat split; intros c; unfold WithDatabaseURL; by case_nonEmpty. Qed.

Lemma WithAuthServiceURL_keeps_others (url : string) :
  keeps DatabaseURL (WithAuthServiceURL url) ∧ keeps Debug (WithAuthServiceURL url) ∧
  keeps Port (WithAuthServiceURL url).
Proof. repeat split; intros c; unfold WithAuthServiceURL; by case_nonEmpty. Qed.

Lemma WithDebug_keeps_others (debug : bool) :
  keeps DatabaseURL (WithDebug debug) ∧ keeps AuthServiceURL (WithDebug debug) ∧
  keeps Port (WithDebug debug).
Proof. by repeat split. Qed.

Lemma WithPort_keeps_others (port : string) :
  keeps DatabaseURL (WithPort port) ∧ keeps AuthServiceURL (WithPort port) ∧
  keeps Debug (WithPort port).
Proof. repeat split; intros c; unfold WithPort; by case_nonEmpty. Qed.

(** ** [NewConfig] unfolded *)

Lemma resolveConfig_value (w : World) (envs : gmap string string) :
  value (resolveConfig w envs) =
    {| DatabaseURL := getEnvWithFallback w envs "DATABASE_URL" "";
       AuthServiceURL := getEnvWithFallback w envs "AUTH_SERVICE_URL" "http://localhost:8080";
       Debug := value (getBoolEnvWithFallback w envs "DEBUG" false);
       Port := getEnvWithFallback w envs "PORT" "8092" |}.
Proof.
  unfold resolveConfig, mbind, Logged_bind, value.
  by destruct (getBoolEnvWithFallback w envs "DEBUG" false) as [b l].
Qed.

(** The value [NewConfig] returns, with the log left out. *)
Lemma NewConfig_value (w : World) (opts : list Option) :
  value (NewConfig w opts) =
    match value (loadEnv w) with
    | Err err => Err (ErrorfW "failed to load environment: " err)
    | Ok envs =>
        let c := applyOptions opts (value (resolveConfig w envs)) in
        match validate c with
        | Some err => Err err
        | None => Ok c
        end
    end.
Proof.
  unfold NewConfig, mbind, Logged_bind, value.
  destruct (loadEnv w) as [[envs|err] l]; simpl; [|done].
  destruct (resolveConfig w envs) as [c l']; simpl.
  by destruct (validate (applyOptions opts c)).
Qed.

Lemma validate_cases (c : Config) :
  (DatabaseURL c = "" ∧ validate c = Some errDatabaseURL) ∨
  (DatabaseURL c ≠ "" ∧ AuthServiceURL c = "" ∧ validate c = Some errAuthServiceURL) ∨
  (DatabaseURL c ≠ "" ∧ AuthServiceURL c ≠ "" ∧ validate c = None).
Proof.
  unfold validate.
  destruct (String.eqb_spec (DatabaseURL c) ""); [by left|right].
  destruct (String.eqb_spec (AuthServiceURL c) ""); [by left|by right].
Qed.

(** ** Validation *)

(** C3.  Whatever the dotenv file, the process environment and the
    options are, a configuration returned by [NewConfig] has a non-empty
    [DatabaseURL] and a non-empty [AuthServiceURL]. *)
Theorem NewConfig_required_fields (w : World) (opts : list Option) (c : Config) :
  value (NewConfig w opts) = Ok c →
  DatabaseURL c ≠ "" ∧ AuthServiceURL c ≠ "".
Proof.
  rewrite NewConfig_value. destruct (value (loadEnv w)) as [envs|err]; [|done].
  cbv zeta.
  destruct (validate_cases (applyOptions opts (value (resolveConfig w envs))))
    as [(_ & ->)|[(_ & _ & ->)|(Hdb & Hauth & ->)]]; try done.
  by intros [= <-].
Qed.

(** A successful load: no dotenv file, empty environment, the database
    URL given by an option. *)
Lemma NewConfig_required_fields_witness :
  ∃ c, value (NewConfig bareWorld [WithDatabaseURL "postgres://x"]) = Ok c ∧
       DatabaseURL c ≠ "" ∧ AuthServiceURL c ≠ "".
Proof.
  eexists. split; [vm_compute; reflexivity|].
  apply (NewConfig_required_fields bareWorld [WithDatabaseURL "postgres://x"]).
  vm_compute. reflexivity.
Defined.


(** A non-empty fallback makes the resolved string non-empty. *)
Lemma getEnvWithFallback_nonempty (w : World) (envs : gmap string string)
    (key fallback : string) :
  fallback ≠ "" → getEnvWithFallback w envs key fallback ≠ "".
Proof.
  intros Hfb.
  destruct (holds_or_lacks envs key) as [[v Hv]|Hf].
  { rewrite (getEnvWithFallback_file _ _ _ _ _ Hv). apply Hv. }
  rewrite getEnvWithFallback_skip_file by done.
  destruct (holds_or_lacks (environ w) key) as [[v Hv]|He].
  { rewrite (getEnvWithFallback_environ _ _ _ _ Hv). apply Hv. }
  by rewrite getEnvWithFallback_default.
Qed.

Lemma resolveConfig_AuthServiceURL_set (w : World) (envs : gmap string string) :
  AuthServiceURL (value (resolveConfig w envs)) ≠ "".
Proof. rewrite resolveConfig_value. simpl. by apply getEnvWithFallback_nonempty. Qed.

Lemma resolveConfig_Port_set (w : World) (envs : gmap string string) :
  Port (value (resolveConfig w envs)) ≠ "".
Proof. rewrite resolveConfig_value. simpl. by apply getEnvWithFallback_nonempty. Qed.

(** With options built from the four constructors only, [NewConfig]
    never reports a missing [AUTH_SERVICE_URL]. *)
Lemma NewConfig_Named_not_errAuthServiceURL (w : World) (opts : list Option) :
  Forall Named opts → value (NewConfig w opts) ≠ Err errAuthServiceURL.
Proof.
  intros Hn. rewrite NewConfig_value.
  destruct (value (loadEnv w)) as [envs|err]; [|done]. cbv zeta.
  pose proof (applyOptions_Named_AuthServiceURL opts _ Hn
                (resolveConfig_AuthServiceURL_set w envs)) as Hauth.
  destruct (validate_cases (applyOptions opts (value (resolveConfig w envs))))
    as [(_ & ->)|[(_ & Hempty & _)|(_ & _ & ->)]]; done.
Qed.




(** C10.  With a non-empty fallback [getEnvWithFallback] returns a
    non-empty string, for every file mapping, environment and key.  Hence
    the [AuthServiceURL] and [Port] fields that [NewConfig] resolves, before
    any option runs, are non-empty, and a call of [NewConfig] without
    options can fail validation only with "DATABASE_URL is not set": any
    other error it returns is the wrapped failure to load the dotenv file. *)
Theorem nonempty_fallback_resolves_nonempty (w : World) (envs : gmap string string) :
  (∀ key fallback, fallback ≠ "" → getEnvWithFallback w envs key fallback ≠ "") ∧
  AuthServiceURL (value (resolveConfig w envs)) ≠ "" ∧
  Port (value (resolveConfig w envs)) ≠ "" ∧
  (∀ err, value (NewConfig w []) = Err err →
     err = Errorf "DATABASE_URL is not set" ∨
     ∃ cause, value (loadEnv w) = Err cause ∧
              err = ErrorfW "failed to load environment: " cause).
Proof.
  split; [|split; [|split]].
  - intros key fallback. apply getEnvWithFallback_nonempty.
  - apply resolveConfig_AuthServiceURL_set.
  - apply resolveConfig_Port_set.
  - intros err. rewrite NewConfig_value.
    destruct (value (loadEnv w)) as [envs'|cause].
    + cbv zeta. rewrite applyOptions_nil.
      pose proof (resolveConfig_AuthServiceURL_set w envs') as Hauth.
      destruct (validate_cases (value (resolveConfig w envs')))
        as [(_ & ->)|[(_ & Hempty & _)|(_ & _ & ->)]]; try done.
      intros [= <-]. by left.
    + intros [= <-]. right. by exists cause.
Qed.

(** In a world with nothing set, the port resolves to its default and
    the call without options fails on the database URL. *)
Lemma nonempty_fallback_resolves_nonempty_witness :
  getEnvWithFallback bareWorld ∅ "PORT" "8092" ≠ "" ∧
  ∃ err, value (NewConfig bareWorld []) = Err err ∧
         (err = Errorf "DATABASE_URL is not set" ∨
          ∃ cause, value (loadEnv bareWorld) = Err cause ∧
                   err = ErrorfW "failed to load environment: " cause).
Proof.
  destruct (nonempty_fallback_resolves_nonempty bareWorld ∅) as (Hget & _ & _ & Herr).
  split.
  - apply Hget. discriminate.
  - eexists. split; [vm_compute; reflexivity|].
    apply Herr. vm_compute. reflexivity.
Defined.

(** ** Reaching the [AUTH_SERVICE_URL] error *)

(** Options built from the four constructors never lead [NewConfig] to
    the error "AUTH_SERVICE_URL is not set", in any world. *)
Lemma errAuthServiceURL_not_reachable_by_constructors :
  ¬ ∃ (w : World) (opts : list Option),
      Forall Named opts ∧
      value (NewConfig w opts) = Err (Errorf "AUTH_SERVICE_URL is not set").
Proof.
  intros (w & opts & Hn & Herr).
  by apply (NewConfig_Named_not_errAuthServiceURL w opts Hn).
Qed.

(** C5 (amended).  The error "AUTH_SERVICE_URL is not set" cannot be
    returned when no option is supplied, nor when every option comes from
    the four constructors; it is returned when a hand-written option that
    assigns the empty string to [AuthServiceURL] runs last and the database
    URL is set, whenever the dotenv file loads or is missing. *)
Theorem errAuthServiceURL_reachability (w : World) :
  value (NewConfig w []) ≠ Err (Errorf "AUTH_SERVICE_URL is not set") ∧
  (∀ opts, Forall Named opts →
     value (NewConfig w opts) ≠ Err (Errorf "AUTH_SERVICE_URL is not set")) ∧
  (∀ envs opts, value (loadEnv w) = Ok envs →
     DatabaseURL (applyOptions opts (value (resolveConfig w envs))) ≠ "" →
     value (NewConfig w (opts ++ [clearAuthServiceURL]))
       = Err (Errorf "AUTH_SERVICE_URL is not set")).
Proof.
  split; [|split].
  - apply NewConfig_Named_not_errAuthServiceURL. constructor.
  - apply NewConfig_Named_not_errAuthServiceURL.
  - intros envs opts Hload Hdb. rewrite NewConfig_value, Hload. cbv zeta.
    rewrite applyOptions_app, applyOptions_cons, applyOptions_nil.
    set (c := applyOptions opts _) in *.
    destruct (validate_cases (clearAuthServiceURL c))
      as [(Hc & _)|[(_ & _ & ->)|(_ & Hc & _)]]; done.
Qed.

(** The hand-written option reaches the error after the database URL
    was supplied by a constructor. *)
Lemma errAuthServiceURL_reachability_witness :
  value (NewConfig bareWorld ([WithDatabaseURL "postgres://x"] ++ [clearAuthServiceURL]))
    = Err (Errorf "AUTH_SERVICE_URL is not set").
Proof.
  apply (proj2 (proj2 (errAuthServiceURL_reachability bareWorld)) ∅).
  - vm_compute. reflexivity.
  - vm_compute. discriminate.
Defined.

(** ** Order of the options *)

(** The configuration [NewConfig] returns is the resolved one with the
    options run over it from first to last. *)
Lemma NewConfig_Ok_applyOptions (w : World) (opts : list Option) (c : Config) :
  value (NewConfig w opts) = Ok c →
  ∃ envs, value (loadEnv w) = Ok envs ∧
          c = applyOptions opts (value (resolveConfig w envs)).
Proof.
  rewrite NewConfig_value. destruct (value (loadEnv w)) as [envs|err]; [|done].
  cbv zeta. destruct (validate _); [done|]. intros [= <-]. by exists envs.
Qed.

(** A later [WithPort ""] does not decide the port: the earlier
    [WithPort "9000"] does. *)
Lemma later_empty_override_does_not_win :
  ∃ c, value (NewConfig bareWorld
                [WithDatabaseURL "postgres://x"; WithPort "9000"; WithPort ""]) = Ok c ∧
       Port c = "9000" ∧ Port c ≠ "".
Proof.
  eexists. split; [vm_compute; reflexivity|]. split; [reflexivity|discriminate].
Qed.

(** C4 (amended).  [NewConfig] runs the options over the resolved
    configuration from first to last, each on the result of the ones before
    it.  Of two options for the same field, the later one decides the
    field's final value when it is [WithDebug], or a string option given a
    non-empty value, and no option after it changes that field; a later
    string option given the empty string leaves the value as the options
    before it made it. *)
Theorem later_override_wins (pre mid post : list Option) :
  (∀ w c, value (NewConfig w (pre ++ post)) = Ok c →
     ∃ envs, value (loadEnv w) = Ok envs ∧
             c = applyOptions post (applyOptions pre (value (resolveConfig w envs)))) ∧
  (∀ c u1 u2, u2 ≠ "" → Forall (keeps DatabaseURL) post →
     DatabaseURL (applyOptions
       (pre ++ WithDatabaseURL u1 :: mid ++ WithDatabaseURL u2 :: post) c) = u2) ∧
  (∀ c u1 u2, u2 ≠ "" → Forall (keeps AuthServiceURL) post →
     AuthServiceURL (applyOptions
       (pre ++ WithAuthServiceURL u1 :: mid ++ WithAuthServiceURL u2 :: post) c) = u2) ∧
  (∀ c d1 d2, Forall (keeps Debug) post →
     Debug (applyOptions (pre ++ WithDebug d1 :: mid ++ WithDebug d2 :: post) c) = d2) ∧
  (∀ c p1 p2, p2 ≠ "" → Forall (keeps Port) post →
     Port (applyOptions (pre ++ WithPort p1 :: mid ++ WithPort p2 :: post) c) = p2) ∧
  (∀ c, applyOptions (pre ++ WithDatabaseURL "" :: post) c = applyOptions (pre ++ post) c ∧
        applyOptions (pre ++ WithAuthServiceURL "" :: post) c = applyOptions (pre ++ post) c ∧
        applyOptions (pre ++ WithPort "" :: post) c = applyOptions (pre ++ post) c).
Proof.
  split; [|split; [|split; [|split; [|split]]]].
  - intros w c Hc. apply NewConfig_Ok_applyOptions in Hc as (envs & Hload & ->).
    exists envs. by rewrite applyOptions_app.
  - intros c u1 u2 Hu Hpost.
    rewrite applyOptions_app, applyOptions_cons, applyOptions_app, applyOptions_cons.
    rewrite (applyOptions_keeps DatabaseURL post _ Hpost).
    by rewrite WithDatabaseURL_set.
  - intros c u1 u2 Hu Hpost.
    rewrite applyOptions_app, applyOptions_cons, applyOptions_app, applyOptions_cons.
    rewrite (applyOptions_keeps AuthServiceURL post _ Hpost).
    by rewrite WithAuthServiceURL_set.
  - intros c d1 d2 Hpost.
    rewrite applyOptions_app, applyOptions_cons, applyOptions_app, applyOptions_cons.
    by rewrite (applyOptions_keeps Debug post _ Hpost).
  - intros c p1 p2 Hp Hpost.
    rewrite applyOptions_app, applyOptions_cons, applyOptions_app, applyOptions_cons.
    rewrite (applyOptions_keeps Port post _ Hpost).
    by rewrite WithPort_set.
  - intros c. by rewrite !applyOptions_app, !applyOptions_cons.
Qed.

(** Two [WithPort] options with a [WithDebug] between and after them:
    the later port wins. *)
Lemma later_override_wins_witness :
  Port (applyOptions
          ([WithDatabaseURL "postgres://x"] ++ WithPort "9000" ::
             [WithDebug true] ++ WithPort "7000" :: [WithDebug false])
          sampleConfig) = "7000".
Proof.
  apply (proj1 (proj2 (proj2 (proj2 (proj2
           (later_override_wins [WithDatabaseURL "postgres://x"] [WithDebug true]
              [WithDebug false])))))).
  - discriminate.
  - repeat constructor.
Defined.

(** ** Resolution of a boolean setting *)

Lemma ParseBool_FormatBool (b : bool) : ParseBool (FormatBool b) = Some b.
Proof. by destruct b. Qed.

Lemma getBoolEnvWithFallback_parsed (w : World) (envs : gmap string string)
    (key : string) (fallback b : bool) :
  ParseBool (getEnvWithFallback w envs key (FormatBool fallback)) = Some b →
  getBoolEnvWithFallback w envs key fallback = (b, []).
Proof. intros H. unfold getBoolEnvWithFallback. by rewrite H. Qed.

Lemma getBoolEnvWithFallback_unparsed (w : World) (envs : gmap string string)
    (key : string) (fallback : bool) :
  ParseBool (getEnvWithFallback w envs key (FormatBool fallback)) = None →
  getBoolEnvWithFallback w envs key fallback =
    (fallback, ["Warning: invalid boolean value for " +:+ key +:+ ", using fallback"]).
Proof. intros H. unfold getBoolEnvWithFallback. by rewrite H. Qed.

(** C7.  [getBoolEnvWithFallback] resolves a string with
    [getEnvWithFallback], the fallback string being the boolean fallback
    printed by [FormatBool], and parses it with [ParseBool]: a string that
    parses gives its boolean, and a string that does not parse gives the
    fallback together with one warning line, not an error.  The literal
    "notabool" does not parse, and a [DEBUG] setting that does not parse
    leaves [Debug] false and does not make [NewConfig] fail. *)
Theorem getBoolEnvWithFallback_bad_literal (w : World) (envs : gmap string string)
    (key : string) (fallback : bool) :
  (∀ b, ParseBool (getEnvWithFallback w envs key (FormatBool fallback)) = Some b →
     getBoolEnvWithFallback w envs key fallback = (b, [])) ∧
  (ParseBool (getEnvWithFallback w envs key (FormatBool fallback)) = None →
     getBoolEnvWithFallback w envs key fallback =
       (fallback, ["Warning: invalid boolean value for " +:+ key +:+ ", using fallback"])) ∧
  ParseBool "notabool" = None ∧
  (value (loadEnv w) = Ok envs →
   ParseBool (getEnvWithFallback w envs "DEBUG" (FormatBool false)) = None →
   Debug (value (resolveConfig w envs)) = false ∧
   ∃ c, value (NewConfig w [WithDatabaseURL "postgres://x"]) = Ok c ∧ Debug c = false).
Proof.
  split; [|split; [|split]].
  - intros b. apply getBoolEnvWithFallback_parsed.
  - apply getBoolEnvWithFallback_unparsed.
  - reflexivity.
  - intros Hload Hbad.
    assert (Hdebug : Debug (value (resolveConfig w envs)) = false).
    { rewrite resolveConfig_value. simpl.
      by rewrite (getBoolEnvWithFallback_unparsed _ _ _ _ Hbad). }
    split; [done|].
    rewrite NewConfig_value, Hload. cbv zeta.
    rewrite applyOptions_cons, applyOptions_nil.
    set (c0 := value (resolveConfig w envs)) in *.
    pose proof (resolveConfig_AuthServiceURL_set w envs) as Hauth. fold c0 in Hauth.
    destruct (validate_cases (WithDatabaseURL "postgres://x" c0))
      as [(Hc & _)|[(_ & Hc & _)|(_ & _ & ->)]]; [done|done|].
    by eexists.
Qed.

(** A dotenv file saying [DEBUG=notabool]: the boolean resolves to the
    fallback with a warning, and the load goes through. *)
Lemma getBoolEnvWithFallback_bad_literal_witness :
  getBoolEnvWithFallback (fileWorld {["DEBUG" := "notabool"]} ∅)
    {["DEBUG" := "notabool"]} "DEBUG" false
    = (false, ["Warning: invalid boolean value for DEBUG, using fallback"]) ∧
  ∃ c, value (NewConfig (fileWorld {["DEBUG" := "notabool"]} ∅)
                [WithDatabaseURL "postgres://x"]) = Ok c ∧ Debug c = false.
Proof.
  destruct (getBoolEnvWithFallback_bad_literal (fileWorld {["DEBUG" := "notabool"]} ∅)
              {["DEBUG" := "notabool"]} "DEBUG" false) as (_ & Hbad & _ & Hload).
  split.
  - apply Hbad. vm_compute. reflexivity.
  - apply Hload; vm_compute; reflexivity.
Defined.

(** ** Loading the dotenv file *)



(** ** The outcome of [NewConfig] *)

(** X1.  When the dotenv file loads or is missing, the result of
    [NewConfig] is read off the configuration left by the options: an empty
    [DatabaseURL] gives "DATABASE_URL is not set", also when
    [AuthServiceURL] is empty too; a set [DatabaseURL] with an empty
    [AuthServiceURL] gives "AUTH_SERVICE_URL is not set"; and with both set
    that configuration is returned. *)
Theorem NewConfig_outcome (w : World) (envs : gmap string string)
    (opts : list Option) :
  value (loadEnv w) = Ok envs →
  (DatabaseURL (applyOptions opts (value (resolveConfig w envs))) = "" →
     value (NewConfig w opts) = Err (Errorf "DATABASE_URL is not set")) ∧
  (DatabaseURL (applyOptions opts (value (resolveConfig w envs))) ≠ "" →
   AuthServiceURL (applyOptions opts (value (resolveConfig w envs))) = "" →
     value (NewConfig w opts) = Err (Errorf "AUTH_SERVICE_URL is not set")) ∧
  (DatabaseURL (applyOptions opts (value (resolveConfig w envs))) ≠ "" →
   AuthServiceURL (applyOptions opts (value (resolveConfig w envs))) ≠ "" →
     value (NewConfig w opts) = Ok (applyOptions opts (value (resolveConfig w envs)))).
Proof.
  intros Hload. rewrite NewConfig_value, Hload. cbv zeta.
  destruct (validate_cases (applyOptions opts (value (resolveConfig w envs))))
    as [(Hdb & ->)|[(Hdb & Hauth & ->)|(Hdb & Hauth & ->)]]; repeat split; done.
Qed.

(** Both required fields empty: the database URL is the one reported. *)
Lemma NewConfig_outcome_witness :
  value (NewConfig bareWorld [clearAuthServiceURL]) = Err (Errorf "DATABASE_URL is not set").
Proof.
  apply (proj1 (NewConfig_outcome bareWorld ∅ [clearAuthServiceURL] eq_refl)).
  vm_compute. reflexivity.
Defined.

(** X2.  An error returned by [NewConfig], whatever the options, is
    "DATABASE_URL is not set", or "AUTH_SERVICE_URL is not set", or the
    error of a failed read of the dotenv file, other than file-not-found,
    wrapped by [loadEnv] and again by [NewConfig]. *)
Theorem NewConfig_error_forms (w : World) (opts : list Option) (err : error) :
  value (NewConfig w opts) = Err err →
  err = Errorf "DATABASE_URL is not set" ∨
  err = Errorf "AUTH_SERVICE_URL is not set" ∨
  ∃ cause, dotenvRead w (envFilePath w) = Err cause ∧ IsNotExist cause = false ∧
           err = ErrorfW "failed to load environment: "
                   (ErrorfW "error reading .env file: " cause).
Proof.
  rewrite NewConfig_value. unfold loadEnv.
  destruct (dotenvRead w (envFilePath w)) as [envs|cause] eqn:Hread.
  - simpl. destruct (validate_cases (applyOptions opts (value (resolveConfig w envs))))
      as [(_ & ->)|[(_ & _ & ->)|(_ & _ & ->)]]; intros [= <-]; auto.
  - destruct (IsNotExist cause) eqn:Hne.
    + simpl. destruct (validate_cases (applyOptions opts (value (resolveConfig w ∅))))
        as [(_ & ->)|[(_ & _ & ->)|(_ & _ & ->)]]; intros [= <-]; auto.
    + simpl. intros [= <-]. right. right. by exists cause.
Qed.

(** The error of a call in a world whose dotenv file cannot be read. *)
Lemma NewConfig_error_forms_witness :
  ∃ err, value (NewConfig unreadableWorld []) = Err err ∧
    (err = Errorf "DATABASE_URL is not set" ∨
     err = Errorf "AUTH_SERVICE_URL is not set" ∨
     ∃ cause, dotenvRead unreadableWorld (envFilePath unreadableWorld) = Err cause ∧
              IsNotExist cause = false ∧
              err = ErrorfW "failed to load environment: "
                      (ErrorfW "error reading .env file: " cause)).
Proof.
  eexists. split; [vm_compute; reflexivity|].
  apply (NewConfig_error_forms unreadableWorld []). vm_compute. reflexivity.
Defined.

(** X13.  When reading the dotenv file fails with an error other than
    file-not-found, the error [NewConfig] returns prints as
    "failed to load environment: error reading .env file: " followed by the
    message of the read error. *)
Theorem NewConfig_load_error_message (w : World) (opts : list Option) (cause : error) :
  dotenvRead w (envFilePath w) = Err cause → IsNotExist cause = false →
  ∃ err, value (NewConfig w opts) = Err err ∧
         Error err =
           "failed to load environment: error reading .env file: " +:+ Error cause.
Proof.
  intros Hread Hne. rewrite NewConfig_value. unfold loadEnv. rewrite Hread, Hne.
  simpl. eexists. split; reflexivity.
Qed.

Lemma NewConfig_load_error_message_witness :
  ∃ err, value (NewConfig unreadableWorld [WithPort "9000"]) = Err err ∧
         Error err =
           "failed to load environment: error reading .env file: "
             +:+ "open .env: permission denied".
Proof.
  apply (NewConfig_load_error_message unreadableWorld [WithPort "9000"]
           (ExternalError false "open .env: permission denied")); reflexivity.
Defined.

(** ** Algebra of the option constructors *)

(** X3.  Options built by constructors of different fields commute: the
    configuration they leave is the same in either order. *)
Theorem different_field_options_commute (c : Config) (db auth port : string)
    (debug : bool) :
  WithDatabaseURL db (WithAuthServiceURL auth c)
    = WithAuthServiceURL auth (WithDatabaseURL db c) ∧
  WithDatabaseURL db (WithDebug debug c) = WithDebug debug (WithDatabaseURL db c) ∧
  WithDatabaseURL db (WithPort port c) = WithPort port (WithDatabaseURL db c) ∧
  WithAuthServiceURL auth (WithDebug debug c)
    = WithDebug debug (WithAuthServiceURL auth c) ∧
  WithAuthServiceURL auth (WithPort port c)
    = WithPort port (WithAuthServiceURL auth c) ∧
  WithDebug debug (WithPort port c) = WithPort port (WithDebug debug c).
Proof.
  unfold WithDatabaseURL, WithAuthServiceURL, WithDebug, WithPort.
  destruct (nonEmpty db), (nonEmpty auth), (nonEmpty port); repeat split.
Qed.

(** X4.  An option built by one of the four constructors is idempotent:
    running it a second time changes nothing. *)
Theorem Named_idempotent (o : Option) (c : Config) :
  Named o → o (o c) = o c.
Proof.
  intros [url|url|debug|port];
    unfold WithDatabaseURL, WithAuthServiceURL, WithDebug, WithPort;
    try case_nonEmpty; reflexivity.
Qed.

Lemma Named_idempotent_witness :
  WithPort "9000" (WithPort "9000" sampleConfig) = WithPort "9000" sampleConfig.
Proof. apply Named_idempotent. constructor. Defined.

Lemma Named_keeps_DatabaseURL_set (o : Option) (c : Config) :
  Named o → DatabaseURL c ≠ "" → DatabaseURL (o c) ≠ "".
Proof.
  intros [url|url|debug|port] Hc;
    unfold WithDatabaseURL, WithAuthServiceURL, WithDebug, WithPort;
    try case_nonEmpty; simpl; try done.
  by apply nonEmpty_true.
Qed.

Lemma Named_keeps_Port_set (o : Option) (c : Config) :
  Named o → Port c ≠ "" → Port (o c) ≠ "".
Proof.
  intros [url|url|debug|port] Hc;
    unfold WithDatabaseURL, WithAuthServiceURL, WithDebug, WithPort;
    try case_nonEmpty; simpl; try done.
  by apply nonEmpty_true.
Qed.

Lemma applyOptions_Named_DatabaseURL (opts : list Option) (c : Config) :
  Forall Named opts → DatabaseURL c ≠ "" →
  DatabaseURL (applyOptions opts c) ≠ "".
Proof.
  intros H. apply (applyOptions_preserves (λ c, DatabaseURL c ≠ "")).
  eapply Forall_impl; [exact H|]. intros o Ho c'. by apply Named_keeps_DatabaseURL_set.
Qed.

Lemma applyOptions_Named_Port (opts : list Option) (c : Config) :
  Forall Named opts → Port c ≠ "" → Port (applyOptions opts c) ≠ "".
Proof.
  intros H. apply (applyOptions_preserves (λ c, Port c ≠ "")).
  eapply Forall_impl; [exact H|]. intros o Ho c'. by apply Named_keeps_Port_set.
Qed.

Lemma validate_None (c : Config) :
  validate c = None ↔ DatabaseURL c ≠ "" ∧ AuthServiceURL c ≠ "".
Proof.
  destruct (validate_cases c) as [(H & Hv)|[(H1 & H2 & Hv)|(H1 & H2 & Hv)]];
    rewrite Hv; split; try done; intros [? ?]; done.
Qed.

(** Options built by the constructors keep a valid configuration valid. *)
Lemma applyOptions_Named_valid (opts : list Option) (c : Config) :
  Forall Named opts → validate c = None → validate (applyOptions opts c) = None.
Proof.
  intros Hn. rewrite !validate_None. intros [Hdb Hauth]. split.
  - by apply applyOptions_Named_DatabaseURL.
  - by apply applyOptions_Named_AuthServiceURL.
Qed.

(** A configuration returned by [NewConfig] passes [validate]. *)
Lemma NewConfig_Ok_valid (w : World) (opts : list Option) (c : Config) :
  value (NewConfig w opts) = Ok c → validate c = None.
Proof.
  rewrite NewConfig_value. destruct (value (loadEnv w)) as [envs|err]; [|done].
  cbv zeta. destruct (validate _) eqn:Hv; [done|]. by intros [= <-].
Qed.

(** ** What the constructors cannot undo *)

(** X6.  When every option comes from the four constructors, a
    configuration returned by [NewConfig] has a non-empty [Port] as well:
    the default "8092" is non-empty and [WithPort] ignores the empty
    string. *)
Theorem NewConfig_Named_Port_set (w : World) (opts : list Option) (c : Config) :
  Forall Named opts → value (NewConfig w opts) = Ok c → Port c ≠ "".
Proof.
  intros Hn Hc. apply NewConfig_Ok_applyOptions in Hc as (envs & _ & ->).
  apply applyOptions_Named_Port; [done|]. apply resolveConfig_Port_set.
Qed.

Lemma NewConfig_Named_Port_set_witness :
  ∃ c, value (NewConfig bareWorld [WithDatabaseURL "postgres://x"; WithPort ""]) = Ok c ∧
       Port c ≠ "".
Proof.
  eexists. split; [vm_compute; reflexivity|].
  apply (NewConfig_Named_Port_set bareWorld [WithDatabaseURL "postgres://x"; WithPort ""]).
  - repeat constructor.
  - vm_compute. reflexivity.
Defined.

(** X7.  When the dotenv file loads or is missing and the file mapping
    or the process environment has a non-empty [DATABASE_URL], [NewConfig]
    returns a configuration for every sequence of options built by the four
    constructors. *)
Theorem NewConfig_succeeds_when_database_url_configured (w : World)
    (envs : gmap string string) (opts : list Option) (v : string) :
  value (loadEnv w) = Ok envs →
  holds envs "DATABASE_URL" v ∨ holds (environ w) "DATABASE_URL" v →
  Forall Named opts →
  ∃ c, value (NewConfig w opts) = Ok c.
Proof.
  intros Hload Hv Hn. rewrite NewConfig_value, Hload. cbv zeta.
  assert (Hdb : DatabaseURL (value (resolveConfig w envs)) ≠ "").
  { rewrite resolveConfig_value. simpl.
    destruct (holds_or_lacks envs "DATABASE_URL") as [[v' Hv']|Hlack].
    - rewrite (getEnvWithFallback_file _ _ _ _ _ Hv'). apply Hv'.
    - destruct Hv as [Hv|Hv].
      + destruct Hv as [E Hne], Hlack as [E'|E']; congruence.
      + rewrite getEnvWithFallback_skip_file by done.
        rewrite (getEnvWithFallback_environ _ _ _ _ Hv). apply Hv. }
  assert (Hvalid : validate (value (resolveConfig w envs)) = None).
  { apply validate_None. split; [done|]. apply resolveConfig_AuthServiceURL_set. }
  rewrite (applyOptions_Named_valid opts _ Hn Hvalid). by eexists.
Qed.

Lemma NewConfig_succeeds_when_database_url_configured_witness :
  ∃ c, value (NewConfig envOnlyWorld
                [WithDatabaseURL ""; WithAuthServiceURL ""; WithDebug true]) = Ok c.
Proof.
  apply (NewConfig_succeeds_when_database_url_configured envOnlyWorld ∅
           _ "postgres://env").
  - vm_compute. reflexivity.
  - right. split; [vm_compute; reflexivity|discriminate].
  - repeat constructor.
Defined.

(** X9.  Appending options built by the four constructors to a call of
    [NewConfig] that succeeds gives a call that succeeds. *)
Theorem NewConfig_success_kept_by_constructors (w : World)
    (opts more : list Option) (c : Config) :
  value (NewConfig w opts) = Ok c → Forall Named more →
  value (NewConfig w (opts ++ more)) = Ok (applyOptions more c).
Proof.
  intros Hc Hn.
  pose proof (NewConfig_Ok_valid w opts c Hc) as Hvalid.
  apply NewConfig_Ok_applyOptions in Hc as (envs & Hload & ->).
  rewrite NewConfig_value, Hload. cbv zeta. rewrite applyOptions_app.
  by rewrite (applyOptions_Named_valid more _ Hn Hvalid).
Qed.

Lemma NewConfig_success_kept_by_constructors_witness :
  value (NewConfig bareWorld ([WithDatabaseURL "postgres://x"] ++ [WithPort "9000"]))
  = Ok (applyOptions [WithPort "9000"]
          {| DatabaseURL := "postgres://x"; AuthServiceURL := "http://localhost:8080";
             Debug := false; Port := "8092" |}).
Proof.
  apply (NewConfig_success_kept_by_constructors bareWorld).
  - vm_compute. reflexivity.
  - repeat constructor.
Defined.

(** ** Fields no option changes *)

(** X5.  In a configuration returned by [NewConfig], a field that none
    of the options changes has the value resolved from the file mapping,
    the process environment and the default of that field. *)
Theorem untouched_fields_keep_resolved_value (w : World) (opts : list Option)
    (c : Config) :
  value (NewConfig w opts) = Ok c →
  ∃ envs, value (loadEnv w) = Ok envs ∧
    (Forall (keeps DatabaseURL) opts →
       DatabaseURL c = getEnvWithFallback w envs "DATABASE_URL" "") ∧
    (Forall (keeps AuthServiceURL) opts →
       AuthServiceURL c =
         getEnvWithFallback w envs "AUTH_SERVICE_URL" "http://localhost:8080") ∧
    (Forall (keeps Debug) opts →
       Debug c = value (getBoolEnvWithFallback w envs "DEBUG" false)) ∧
    (Forall (keeps Port) opts →
       Port c = getEnvWithFallback w envs "PORT" "8092").
Proof.
  intros Hc. apply NewConfig_Ok_applyOptions in Hc as (envs & Hload & ->).
  exists envs. split; [done|].
  repeat split; intros Hk; rewrite (applyOptions_keeps _ _ _ Hk);
    by rewrite resolveConfig_value.
Qed.

(** The port of the dotenv file survives options for the other fields. *)
Lemma untouched_fields_keep_resolved_value_witness :
  ∃ envs, value (loadEnv (fileWorld {["PORT" := "9000"]} ∅)) = Ok envs ∧
    Port {| DatabaseURL := "postgres://x"; AuthServiceURL := "http://localhost:8080";
            Debug := true; Port := "9000" |}
    = getEnvWithFallback (fileWorld {["PORT" := "9000"]} ∅) envs "PORT" "8092".
Proof.
  destruct (untouched_fields_keep_resolved_value (fileWorld {["PORT" := "9000"]} ∅)
              [WithDatabaseURL "postgres://x"; WithDebug true]
              {| DatabaseURL := "postgres://x"; AuthServiceURL := "http://localhost:8080";
                 Debug := true; Port := "9000" |})
    as (envs & Hload & _ & _ & _ & Hport).
  - vm_compute. reflexivity.
  - exists envs. split; [exact Hload|]. apply Hport. repeat constructor.
Defined.

(** ** The boolean setting when nothing is set *)

(** X8.  When neither the file mapping nor the process environment has
    a non-empty value for the key, [getBoolEnvWithFallback] returns the
    fallback, whichever boolean it is, and logs nothing: the fallback
    printed by [FormatBool] is read back by [ParseBool]. *)
Theorem getBoolEnvWithFallback_unset (w : World) (envs : gmap string string)
    (key : string) (fallback : bool) :
  lacks envs key → lacks (environ w) key →
  getBoolEnvWithFallback w envs key fallback = (fallback, []).
Proof.
  intros Hf He. apply getBoolEnvWithFallback_parsed.
  rewrite getEnvWithFallback_skip_file by done.
  rewrite getEnvWithFallback_default by done.
  apply ParseBool_FormatBool.
Qed.

Lemma getBoolEnvWithFallback_unset_witness :
  getBoolEnvWithFallback (fileWorld {["DEBUG" := ""]} ∅) {["DEBUG" := ""]} "DEBUG" true
  = (true, []).
Proof.
  apply getBoolEnvWithFallback_unset.
  - right. vm_compute. reflexivity.
  - left. vm_compute. reflexivity.
Defined.

(** ** What [NewConfig] logs *)

Lemma resolveConfig_logs (w : World) (envs : gmap string string) :
  logs (resolveConfig w envs) = logs (getBoolEnvWithFallback w envs "DEBUG" false).
Proof.
  unfold resolveConfig, mbind, Logged_bind, logs.
  destruct (getBoolEnvWithFallback w envs "DEBUG" false) as [b l]. simpl.
  apply app_nil_r.
Qed.

Lemma NewConfig_logs (w : World) (opts : list Option) :
  logs (NewConfig w opts) =
    logs (loadEnv w) ++
    match value (loadEnv w) with
    | Ok envs => logs (getBoolEnvWithFallback w envs "DEBUG" false)
    | Err _ => []
    end.
Proof.
  unfold NewConfig, mbind, Logged_bind.
  destruct (loadEnv w) as [[envs|err] l]; simpl; [|done].
  rewrite <- resolveConfig_logs.
  destruct (resolveConfig w envs) as [c l']; simpl.
  destruct (validate (applyOptions opts c)); simpl; by rewrite app_nil_r.
Qed.

Lemma loadEnv_logs_length (w : World) : (List.length (logs (loadEnv w)) ≤ 1)%nat.
Proof.
  unfold loadEnv. destruct (dotenvRead w (envFilePath w)) as [envs|err]; simpl; [lia|].
  destruct (IsNotExist err); simpl; lia.
Qed.

Lemma getBoolEnvWithFallback_logs_length (w : World) (envs : gmap string string)
    (key : string) (fallback : bool) :
  (List.length (logs (getBoolEnvWithFallback w envs key fallback)) ≤ 1)%nat.
Proof. unfold getBoolEnvWithFallback. destruct (ParseBool _); simpl; lia. Qed.

(** X10.  The lines logged by a call of [NewConfig] are the ones
    [loadEnv] logs followed by the one the [DEBUG] setting may cause; they
    are at most two, they are the same whatever options are passed, and
    when loading the dotenv file fails with an error nothing is logged. *)
Theorem NewConfig_log_lines (w : World) (opts : list Option) :
  logs (NewConfig w opts) =
    logs (loadEnv w) ++
    match value (loadEnv w) with
    | Ok envs => logs (getBoolEnvWithFallback w envs "DEBUG" false)
    | Err _ => []
    end ∧
  (List.length (logs (NewConfig w opts)) ≤ 2)%nat ∧
  logs (NewConfig w opts) = logs (NewConfig w []) ∧
  (∀ err, value (loadEnv w) = Err err → logs (NewConfig w opts) = []).
Proof.
  split; [apply NewConfig_logs|]. split; [|split].
  - rewrite NewConfig_logs, length_app.
    pose proof (loadEnv_logs_length w).
    destruct (value (loadEnv w)) as [envs|err]; simpl; [|lia].
    pose proof (getBoolEnvWithFallback_logs_length w envs "DEBUG" false). lia.
  - by rewrite !NewConfig_logs.
  - intros err Herr. rewrite NewConfig_logs, Herr, app_nil_r.
    revert Herr. unfold loadEnv.
    destruct (dotenvRead w (envFilePath w)) as [envs|e]; simpl; [done|].
    by destruct (IsNotExist e).
Qed.

Lemma NewConfig_log_lines_witness :
  logs (NewConfig unreadableWorld [WithPort "9000"]) = [].
Proof.
  apply (proj2 (proj2 (proj2 (NewConfig_log_lines unreadableWorld [WithPort "9000"])))
           (ErrorfW "error reading .env file: "
              (ExternalError false "open .env: permission denied"))).
  vm_compute. reflexivity.
Defined.

(** ** What [NewConfig] reads *)





(** ** Which file [loadEnv] reads *)

(** X12.  [loadEnv] reads the path in [ENV_FILE] when that variable is set
    and non-empty, and the path next to the caller's source tree when it is
    unset or set to the empty string; a file that is read successfully is
    returned as it is, with nothing logged. *)
Theorem loadEnv_reads_env_file_path (w : World) (envs : gmap string string) :
  (∀ path, holds (environ w) "ENV_FILE" path → dotenvRead w path = Ok envs →
     loadEnv w = (Ok envs, [])) ∧
  (lacks (environ w) "ENV_FILE" → dotenvRead w (callerEnvFile w) = Ok envs →
     loadEnv w = (Ok envs, [])).
Proof.
  split.
  - intros path [E Hne] Hread.
    assert (Hpath : envFilePath w = path).
    { unfold envFilePath, Getenv, LookupEnv. rewrite E. simpl.
      destruct (String.eqb_spec path ""); done. }
    unfold loadEnv. by rewrite Hpath, Hread.
  - intros Hlack Hread.
    assert (Hpath : envFilePath w = callerEnvFile w).
    { unfold envFilePath, Getenv, LookupEnv. by destruct Hlack as [-> | ->]. }
    unfold loadEnv. by rewrite Hpath, Hread.
Qed.

Lemma loadEnv_reads_env_file_path_witness :
  loadEnv envFileWorld
    = (Ok {["DATABASE_URL" := "postgres://file"; "DEBUG" := "T"]}, []) ∧
  loadEnv (fileWorld {["PORT" := "9000"]} {["ENV_FILE" := ""]})
    = (Ok {["PORT" := "9000"]}, []).
Proof.
  split.
  - apply (proj1 (loadEnv_reads_env_file_path envFileWorld _) "/etc/app.env").
    + split; [vm_compute; reflexivity|discriminate].
    + reflexivity.
  - apply (proj2 (loadEnv_reads_env_file_path
                    (fileWorld {["PORT" := "9000"]} {["ENV_FILE" := ""]}) _)).
    + right. vm_compute. reflexivity.
    + reflexivity.
Defined.

(** ** A bad boolean in the dotenv file *)

(** X14.  A non-empty value for the key in the file mapping that does
    not parse as a boolean gives the fallback and the warning, whatever the
    process environment holds for the key: a valid boolean in the
    environment is not used in its place. *)
Theorem bad_file_boolean_hides_environment (w : World) (envs : gmap string string)
    (key v : string) (fallback : bool) :
  holds envs key v → ParseBool v = None →
  getBoolEnvWithFallback w envs key fallback =
    (fallback, ["Warning: invalid boolean value for " +:+ key +:+ ", using fallback"]).
Proof.
  intros Hv Hbad. apply getBoolEnvWithFallback_unparsed.
  by rewrite (getEnvWithFallback_file _ _ _ _ _ Hv).
Qed.

(** [DEBUG=yes] in the file and [DEBUG=true] in the environment. *)
Lemma bad_file_boolean_hides_environment_witness :
  getBoolEnvWithFallback (fileWorld {["DEBUG" := "yes"]} {["DEBUG" := "true"]})
    {["DEBUG" := "yes"]} "DEBUG" false
  = (false, ["Warning: invalid boolean value for DEBUG, using fallback"]).
Proof.
  apply (bad_file_boolean_hides_environment
           (fileWorld {["DEBUG" := "yes"]} {["DEBUG" := "true"]})
           {["DEBUG" := "yes"]} "DEBUG" "yes" false).
  - split; [vm_compute; reflexivity|discriminate].
  - reflexivity.
Defined.
